(** * Shadow-Dns: domain normalisation and the mapping store of [main.py]

    Shallow embedding of the core of the redirector backend:
    [normalize_domain], the four store functions over the [mappings] table
    ([get_redirect_for], [set_mapping], [remove_mapping], [list_mappings]),
    the bodies of the routes that call them, the API-key dependency that
    protects the routes, and the parsing of the CORS origins.

    Data model.
    - A Python [str] is modelled as a Rocq [string]; a character is the
      code point U+0000..U+00FF it denotes.  On that range [str.lower] maps a
      character to one character and stays inside the range, so the model of
      [lower] and of the white space removed by [strip] is exact there.
    - The table [mappings(domain TEXT PRIMARY KEY, redirect TEXT)] is a finite
      map from the [domain] column to the nullable [redirect] column:
      [gmap string (option string)].  The primary key is the map's key, so a
      domain has at most one row by construction.
    - A raised [HTTPException] is the left injection of a sum. *)

From Stdlib Require Import Ascii String List Bool Arith Lia.
From stdpp Require Import gmap strings list fin_maps sorting.

Local Open Scope string_scope.

(** ** Python string primitives *)

Module Py.

(** [c.isspace()] for a code point below 256: TAB, LF, VT, FF, CR, the four
    separators FS, GS, RS, US, the space, NEL (U+0085) and the no-break space
    (U+00A0). *)
Definition isspace (c : ascii) : bool :=
  let n := nat_of_ascii c in
  (((9 <=? n) && (n <=? 13)) || ((28 <=? n) && (n <=? 32))
   || (n =? 133) || (n =? 160))%nat.

(** [c.lower()] for a code point below 256: A..Z, and the Latin-1 capitals
    U+00C0..U+00DE without the multiplication sign U+00D7, move up by 32. *)
Definition lower_char (c : ascii) : ascii :=
  let n := nat_of_ascii c in
  if (((65 <=? n) && (n <=? 90))
      || ((192 <=? n) && (n <=? 222) && negb (n =? 215)))%nat
  then ascii_of_nat (n + 32) else c.

(** [s.lower()] *)
Fixpoint lower (s : string) : string :=
  match s with
  | EmptyString => EmptyString
  | String c r => String (lower_char c) (lower r)
  end.

(** [s.lstrip()] *)
Fixpoint lstrip (s : string) : string :=
  match s with
  | EmptyString => EmptyString
  | String c r => if isspace c then lstrip r else s
  end.

(** [s.rstrip()] *)
Fixpoint rstrip (s : string) : string :=
  match s with
  | EmptyString => EmptyString
  | String c r =>
      match rstrip r with
      | EmptyString => if isspace c then EmptyString else String c EmptyString
      | r' => String c r'
      end
  end.

(** [s.strip()]: white space is removed at both ends. *)
Definition strip (s : string) : string := rstrip (lstrip s).

(** [s.startswith(p)] *)
Fixpoint startswith (p s : string) : bool :=
  match p, s with
  | EmptyString, _ => true
  | String a p', String b s' => if ascii_dec a b then startswith p' s' else false
  | String _ _, EmptyString => false
  end.

(** [s[n:]] *)
Fixpoint slice_from (n : nat) (s : string) : string :=
  match n, s with
  | O, _ => s
  | S n', String _ r => slice_from n' r
  | S _, EmptyString => EmptyString
  end.

(** [s.removeprefix(p)]: [s[len(p):]] when [s.startswith(p)], else [s]. *)
Definition removeprefix (p s : string) : string :=
  if startswith p s then slice_from (String.length p) s else s.

(** [s.split(sep)] for a separator of one character.  The result always has
    at least one field; the last equation of the inner match is never
    reached. *)
Fixpoint split (sep : ascii) (s : string) : list string :=
  match s with
  | EmptyString => [EmptyString]
  | String c r =>
      if ascii_dec c sep then EmptyString :: split sep r
      else match split sep r with
           | f :: fs => String c f :: fs
           | [] => [String c EmptyString]
           end
  end.

(** [xs[i]], which raises [IndexError] (here [None]) out of range. *)
Definition getitem {A} (xs : list A) (i : nat) : option A := nth_error xs i.

(** Characters of a string, for statements about its contents. *)
Fixpoint chars (s : string) : list ascii :=
  match s with
  | EmptyString => []
  | String c r => c :: chars r
  end.

(** A string with no character at all or white space only. *)
Definition blank (s : string) : bool := forallb isspace (chars s).

(** Truth value of a [str]: only the empty string is false. *)
Definition truthy (s : string) : bool :=
  match s with EmptyString => false | String _ _ => true end.

(** [bool(n)] for an [int]. *)
Definition bool_of_int (n : nat) : bool :=
  match n with O => false | S _ => true end.

End Py.

(** ** The normaliser *)

(** The string before [.split("/")[0]]:
    [domain.strip().lower().removeprefix("http://").removeprefix("https://").removeprefix("www.")] *)
Definition stripped_prefixes (domain : string) : string :=
  Py.removeprefix "www."
    (Py.removeprefix "https://"
       (Py.removeprefix "http://" (Py.lower (Py.strip domain)))).

(** [normalize_domain] with the indexing [[0]] kept fallible. *)
Definition normalize_domain_indexed (domain : string) : option string :=
  Py.getitem (Py.split "/" (stripped_prefixes domain)) 0.

(** [normalize_domain]: the first field of the split.  That the index never
    fails is [getitem0_split] below. *)
Definition normalize_domain (domain : string) : string :=
  hd EmptyString (Py.split "/" (stripped_prefixes domain)).

(** ** The mapping store *)

(** The rows of [mappings]: [domain] (primary key) to [redirect] (nullable). *)
Abbreviation table := (gmap string (option string)).

(** [MappingItem(domain=..., redirect=...)] *)
Record MappingItem := mkMappingItem {
  domain : string;
  redirect : option string
}.

(** [SELECT redirect FROM mappings WHERE domain = ?] followed by
    [cur.fetchone()]: the row as a 1-tuple, or [None] when there is none. *)
Definition select_redirect (d : string) (t : table) : option (option string) :=
  t !! d.

(** [INSERT INTO mappings(domain, redirect) VALUES(?, ?)
     ON CONFLICT(domain) DO UPDATE SET redirect=excluded.redirect] *)
Definition insert_on_conflict_update (d : string) (r : option string)
    (t : table) : table :=
  <[d := r]> t.

(** [DELETE FROM mappings WHERE domain = ?] with [cur.rowcount]: the number
    of rows deleted, and the table after the statement. *)
Definition delete_where (d : string) (t : table) : nat * table :=
  match t !! d with
  | Some _ => (1, delete d t)
  | None => (0, t)
  end.

(** Order of [ORDER BY domain] on two rows: the default collation compares
    the keys code point by code point, a proper prefix first. *)
Definition row_le (x y : string * option string) : Prop := String.le x.1 y.1.

Global Instance row_le_dec : RelDecision row_le :=
  fun x y => decide (String.le x.1 y.1).

(** [SELECT domain, redirect FROM mappings ORDER BY domain] followed by
    [cur.fetchall()]. *)
Definition select_all_ordered (t : table) : list (string * option string) :=
  merge_sort row_le (map_to_list t).

(** [get_redirect_for]: [row[0] if row else None]. *)
Definition get_redirect_for (domain : string) (t : table) : option string :=
  let d := normalize_domain domain in
  let row := select_redirect d t in
  match row with
  | Some r0 => r0
  | None => None
  end.

(** [set_mapping]: returns nothing, the table is updated. *)
Definition set_mapping (domain : string) (redirect : option string)
    (t : table) : table :=
  let d := normalize_domain domain in
  insert_on_conflict_update d redirect t.

(** [remove_mapping]: [bool(cur.rowcount)] and the table after the delete. *)
Definition remove_mapping (domain : string) (t : table) : bool * table :=
  let d := normalize_domain domain in
  let '(changed, t') := delete_where d t in
  (Py.bool_of_int changed, t').

(** [list_mappings] *)
Definition list_mappings (t : table) : list MappingItem :=
  map (fun r => mkMappingItem r.1 r.2) (select_all_ordered t).

(** ** Route bodies

    The bodies of [check], [register], [unregister] and [bulk_register], after
    request parsing and the API-key dependency.  The result is either the
    raised [HTTPException] or the returned JSON value, with the table. *)

Record HTTPException := mkHTTPException {
  status_code : nat;
  detail : string
}.

Definition missing_domain : HTTPException := mkHTTPException 400 "missing domain".
Definition mapping_not_found : HTTPException := mkHTTPException 404 "mapping not found".

(** [x if x else None] on an optional string. *)
Definition or_none (x : option string) : option string :=
  match x with
  | Some u => if Py.truthy u then Some u else None
  | None => None
  end.

(** [check]: the value of the key ["redirect"] of the answer. *)
Definition check (payload_domain : string) (t : table)
    : HTTPException + option string :=
  if negb (Py.truthy payload_domain) then inl missing_domain
  else inr (get_redirect_for payload_domain t).

(** [register]: the answer's ["domain"] and ["redirect"]. *)
Definition register (payload_domain : string) (payload_redirect : option string)
    (t : table) : (HTTPException + string * option string) * table :=
  if negb (Py.truthy payload_domain) then (inl missing_domain, t)
  else
    let t' := set_mapping payload_domain (or_none payload_redirect) t in
    (inr (normalize_domain payload_domain, payload_redirect), t').

(** [unregister]: the answer's ["domain"]. *)
Definition unregister (d : string) (t : table)
    : (HTTPException + string) * table :=
  if negb (Py.truthy d) then (inl missing_domain, t)
  else
    let '(ok, t') := remove_mapping d t in
    if negb ok then (inl mapping_not_found, t')
    else (inr (normalize_domain d), t').

(** [bulk_register]: the answer's ["added"], and the table after the loop. *)
Definition bulk_register (items : list (string * option string)) (t : table)
    : nat * table :=
  (length items,
   fold_left (fun acc it =>
                if Py.truthy it.1 then set_mapping it.1 (or_none it.2) acc
                else acc)
             items t).

(** ** Sequences of store operations *)

Inductive op :=
| Upsert (raw : string) (r : option string)
| Delete (raw : string).

Definition step (t : table) (o : op) : table :=
  match o with
  | Upsert raw r => set_mapping raw r t
  | Delete raw => (remove_mapping raw t).2
  end.

Definition run (ops : list op) (t : table) : table := fold_left step ops t.


(** ** Configuration and the API-key dependency *)

(** The CORS origins: ["*"] alone when [ALLOW_ORIGINS == "*"], otherwise
    [[o.strip() for o in ALLOW_ORIGINS.split(",") if o.strip()]]. *)
Definition origins (ALLOW_ORIGINS : string) : list string :=
  if String.eqb ALLOW_ORIGINS "*" then ["*"]
  else map Py.strip
         (List.filter (fun o => Py.truthy (Py.strip o))
                      (Py.split "," ALLOW_ORIGINS)).

Definition unauthorized : HTTPException :=
  mkHTTPException 401 "Invalid or missing API key".

(** Truth value of an [Optional[str]]: [None] and the empty string are false. *)
Definition truthy_opt (x : option string) : bool :=
  match x with
  | Some u => Py.truthy u
  | None => false
  end.

(** [require_api_key]: [API_KEY] is the value of [os.getenv("API_KEY")],
    [x_api_key] the request header, [None] when it is absent. *)
Definition require_api_key (API_KEY x_api_key : option string)
    : HTTPException + bool :=
  if truthy_opt API_KEY then
    if negb (truthy_opt x_api_key) || negb (bool_decide (x_api_key = API_KEY))
    then inl unauthorized
    else inr true
  else inr true.

(** A route declared with [dependencies=[Depends(require_api_key)]]: the
    dependency runs first, and the body only when it does not raise. *)
Definition depends {A} (API_KEY x_api_key : option string)
    (body : table -> (HTTPException + A) * table) (t : table)
    : (HTTPException + A) * table :=
  match require_api_key API_KEY x_api_key with
  | inl e => (inl e, t)
  | inr _ => body t
  end.

Definition register_route (API_KEY x_api_key : option string)
    (payload_domain : string) (payload_redirect : option string) :=
  depends API_KEY x_api_key (register payload_domain payload_redirect).

Definition unregister_route (API_KEY x_api_key : option string) (d : string) :=
  depends API_KEY x_api_key (unregister d).

Definition bulk_register_route (API_KEY x_api_key : option string)
    (items : list (string * option string)) :=
  depends API_KEY x_api_key
    (fun t => let '(added, t') := bulk_register items t in (inr added, t')).

(** [mappings]: the value of the key ["mapping"] of the answer. *)
Definition mappings_route (API_KEY x_api_key : option string) :=
  depends API_KEY x_api_key (fun t => (inr (list_mappings t), t)).

(** ** The normaliser as the specification words it

    Steps 1 to 5 of the specification, with the scheme step read as a choice:
    ["http://"] if present, else ["https://"] if present. *)

(** The part of [s] before the first [sep], all of [s] when there is none. *)
Fixpoint before (sep : ascii) (s : string) : string :=
  match s with
  | EmptyString => EmptyString
  | String c r => if ascii_dec c sep then EmptyString else String c (before sep r)
  end.

Definition strip_scheme_once (x : string) : string :=
  if Py.startswith "http://" x then Py.slice_from 7 x
  else if Py.startswith "https://" x then Py.slice_from 8 x
  else x.

Definition normalize_once (raw : string) : string :=
  let trimmed := Py.strip raw in
  let lowered := Py.lower trimmed in
  let no_scheme := strip_scheme_once lowered in
  let no_www := if Py.startswith "www." no_scheme
                then Py.slice_from 4 no_scheme else no_scheme in
  before "/" no_www.

(** Number of scheme prefixes the chain of [removeprefix] calls takes off. *)
Definition scheme_removals (raw : string) : nat :=
  let x := Py.lower (Py.strip raw) in
  (if Py.startswith "http://" x then 1 else 0)
  + (if Py.startswith "https://" (Py.removeprefix "http://" x) then 1 else 0).

(** * Facts about the string primitives *)

Example normalize_ex1 : normalize_domain "HTTP://WWW.Example.com/path" = "example.com".
Proof. reflexivity. Qed.

Example normalize_ex2 : normalize_domain "https://Example.COM" = "example.com".
Proof. reflexivity. Qed.

Example normalize_ex3 : normalize_domain "  example.com  " = "example.com".
Proof. reflexivity. Qed.

(** The code points that [isspace] accepts, and [lower_char] at the ends of
    its ranges. *)
Example isspace_code_points :
  filter (fun n => Py.isspace (ascii_of_nat n)) (seq 0 256)
  = [9; 10; 11; 12; 13; 28; 29; 30; 31; 32; 133; 160]%nat.
Proof. vm_compute. reflexivity. Qed.

Example lower_char_code_points :
  map (fun n => nat_of_ascii (Py.lower_char (ascii_of_nat n)))
      [64; 65; 90; 91; 97; 191; 192; 214; 215; 216; 222; 223; 255]%nat
  = [64; 97; 122; 91; 97; 191; 224; 246; 215; 248; 254; 223; 255]%nat.
Proof. vm_compute. reflexivity. Qed.

Example split_ex :
  Py.split "/" "a//b/" = ["a"; ""; "b"; ""] /\ Py.split "/" "" = [""].
Proof. split; reflexivity. Qed.

Example strip_ex : Py.strip "  a b  " = "a b" /\ Py.strip "   " = "".
Proof. split; reflexivity. Qed.

Example delete_ex :
  remove_mapping "never-registered.com" ∅ = (false, ∅)
  /\ (remove_mapping "A.com" (set_mapping "a.com" (Some "https://x") ∅)).1 = true
  /\ get_redirect_for "a.com"
       (remove_mapping "A.com" (set_mapping "a.com" (Some "https://x") ∅)).2
     = None.
Proof. repeat split; vm_compute; reflexivity. Qed.

Example unregister_ex :
  unregister "b.com" (set_mapping "a.com" None ∅)
  = (inl mapping_not_found, set_mapping "a.com" None ∅).
Proof. vm_compute. reflexivity. Qed.


Section StringFacts.

Implicit Types (s p : string) (c sep : ascii).

Lemma lower_char_idem c : Py.lower_char (Py.lower_char c) = Py.lower_char c.
Proof. destruct c as [[] [] [] [] [] [] [] []]; reflexivity. Qed.

Lemma chars_lower s : Py.chars (Py.lower s) = map Py.lower_char (Py.chars s).
Proof. induction s as [|c r IH]; simpl; [reflexivity | now rewrite IH]. Qed.

Lemma lower_fixed s :
  Forall (fun c => Py.lower_char c = c) (Py.chars s) -> Py.lower s = s.
Proof.
  induction s as [|c r IH]; simpl; intros H; [reflexivity|].
  inversion H as [|? ? Hc Hr]; subst. now rewrite Hc, IH.
Qed.

Lemma lower_chars_fixed s :
  Forall (fun c => Py.lower_char c = c) (Py.chars (Py.lower s)).
Proof.
  induction s as [|c r IH]; simpl; constructor; auto using lower_char_idem.
Qed.

Variable P : ascii -> Prop.

Lemma Forall_lstrip s :
  Forall P (Py.chars s) -> Forall P (Py.chars (Py.lstrip s)).
Proof.
  induction s as [|c r IH]; simpl; intros H; [assumption|].
  destruct (Py.isspace c); [|assumption].
  inversion H; subst; auto.
Qed.

Lemma Forall_rstrip s :
  Forall P (Py.chars s) -> Forall P (Py.chars (Py.rstrip s)).
Proof.
  induction s as [|c r IH]; simpl; intros H; [assumption|].
  inversion H as [|? ? Hc Hr]; subst. specialize (IH Hr).
  destruct (Py.rstrip r) as [|c' r'].
  - destruct (Py.isspace c); simpl; auto.
  - simpl. constructor; assumption.
Qed.

Lemma Forall_strip s :
  Forall P (Py.chars s) -> Forall P (Py.chars (Py.strip s)).
Proof. intros H. unfold Py.strip. now apply Forall_rstrip, Forall_lstrip. Qed.

Lemma Forall_slice_from n s :
  Forall P (Py.chars s) -> Forall P (Py.chars (Py.slice_from n s)).
Proof.
  revert s. induction n as [|n IH]; intros [|c r] H; simpl; auto.
  inversion H; subst; auto.
Qed.

Lemma Forall_removeprefix p s :
  Forall P (Py.chars s) -> Forall P (Py.chars (Py.removeprefix p s)).
Proof.
  intros H. unfold Py.removeprefix.
  destruct (Py.startswith p s); auto using Forall_slice_from.
Qed.

Lemma Forall_before sep s :
  Forall P (Py.chars s) -> Forall P (Py.chars (before sep s)).
Proof.
  induction s as [|c r IH]; simpl; intros H; [assumption|].
  inversion H; subst.
  destruct (ascii_dec c sep); simpl; auto.
Qed.

End StringFacts.

Section SplitFacts.

Implicit Types (s p : string) (c sep : ascii).

Lemma split_not_nil sep s : Py.split sep s <> [].
Proof.
  destruct s as [|c r]; simpl; [discriminate|].
  destruct (ascii_dec c sep); [discriminate|].
  destruct (Py.split sep r); discriminate.
Qed.

Lemma hd_split sep s : hd EmptyString (Py.split sep s) = before sep s.
Proof.
  induction s as [|c r IH]; simpl; [reflexivity|].
  destruct (ascii_dec c sep); [reflexivity|].
  destruct (Py.split sep r) as [|f fs] eqn:E.
  - now apply split_not_nil in E.
  - simpl in *. now rewrite IH.
Qed.

Lemma getitem0_split sep s :
  Py.getitem (Py.split sep s) 0 = Some (before sep s).
Proof.
  rewrite <- hd_split. unfold Py.getitem.
  destruct (Py.split sep s) eqn:E; [now apply split_not_nil in E | reflexivity].
Qed.

Lemma before_no_sep sep s : ~ In sep (Py.chars (before sep s)).
Proof.
  induction s as [|c r IH]; simpl; [tauto|].
  destruct (ascii_dec c sep); simpl; [tauto|].
  intros [->|H]; [congruence | auto].
Qed.

Lemma before_id sep s : ~ In sep (Py.chars s) -> before sep s = s.
Proof.
  induction s as [|c r IH]; simpl; intros H; [reflexivity|].
  destruct (ascii_dec c sep) as [->|]; [tauto|].
  rewrite IH; [reflexivity | tauto].
Qed.

Lemma startswith_In p s c :
  Py.startswith p s = true -> In c (Py.chars p) -> In c (Py.chars s).
Proof.
  revert s. induction p as [|a p IH]; intros [|b s]; simpl; try tauto;
    try discriminate.
  destruct (ascii_dec a b) as [->|]; [|discriminate].
  intros H [->|Hc]; [now left | right; eauto].
Qed.

Lemma removeprefix_absent p s c :
  In c (Py.chars p) -> ~ In c (Py.chars s) -> Py.removeprefix p s = s.
Proof.
  intros Hp Hs. unfold Py.removeprefix.
  destruct (Py.startswith p s) eqn:E; [|reflexivity].
  exfalso. eauto using startswith_In.
Qed.

Lemma lstrip_blank s : Py.blank s = true -> Py.lstrip s = EmptyString.
Proof.
  unfold Py.blank. induction s as [|c r IH]; simpl; [reflexivity|].
  destruct (Py.isspace c); simpl; [assumption | discriminate].
Qed.

Lemma strip_blank s : Py.blank s = true -> Py.strip s = EmptyString.
Proof. intros H. unfold Py.strip. now rewrite lstrip_blank. Qed.

End SplitFacts.

(** * The normaliser *)

Section LengthFacts.

Implicit Types (s p q : string).

Lemma lstrip_length s :
  Py.lstrip s = s \/ String.length (Py.lstrip s) < String.length s.
Proof.
  induction s as [|c r IH]; simpl; [now left|].
  destruct (Py.isspace c); [right | now left].
  destruct IH as [->|H]; lia.
Qed.

Lemma rstrip_length s :
  Py.rstrip s = s \/ String.length (Py.rstrip s) < String.length s.
Proof.
  induction s as [|c r IH]; simpl; [now left|].
  destruct (Py.rstrip r) as [|c' r'] eqn:E.
  - destruct (Py.isspace c); simpl.
    + right. lia.
    + destruct IH as [<-|H]; [now left | right; simpl in *; lia].
  - destruct IH as [<-|H]; [now left | right; simpl in *; lia].
Qed.

Lemma strip_length s :
  Py.strip s = s \/ String.length (Py.strip s) < String.length s.
Proof.
  unfold Py.strip.
  destruct (lstrip_length s) as [E|H].
  - rewrite E. apply rstrip_length.
  - right. destruct (rstrip_length (Py.lstrip s)) as [->|H']; lia.
Qed.

Lemma slice_from_length n s :
  String.length (Py.slice_from n s) = String.length s - n.
Proof.
  revert s. induction n as [|n IH]; intros [|c r]; simpl; auto.
Qed.

Lemma startswith_length p s :
  Py.startswith p s = true -> String.length p <= String.length s.
Proof.
  revert s. induction p as [|a p IH]; intros [|b s]; simpl; try lia;
    try discriminate.
  destruct (ascii_dec a b); [|discriminate].
  intros H. apply IH in H. lia.
Qed.

Lemma removeprefix_length p s :
  String.length (Py.removeprefix p s) <= String.length s.
Proof.
  unfold Py.removeprefix. destruct (Py.startswith p s); [|lia].
  rewrite slice_from_length. lia.
Qed.

Lemma removeprefix_true p s :
  Py.startswith p s = true ->
  Py.removeprefix p s = Py.slice_from (String.length p) s.
Proof. intros H. unfold Py.removeprefix. now rewrite H. Qed.

Lemma removeprefix_false p s :
  Py.startswith p s = false -> Py.removeprefix p s = s.
Proof. intros H. unfold Py.removeprefix. now rewrite H. Qed.

Lemma startswith_app p q s :
  Py.startswith (p ++ q) s
  = Py.startswith p s && Py.startswith q (Py.slice_from (String.length p) s).
Proof.
  revert s. induction p as [|a p IH]; intros s; simpl.
  - reflexivity.
  - destruct s as [|b s]; [reflexivity|].
    destruct (ascii_dec a b); [apply IH | reflexivity].
Qed.

Lemma slice_from_add n m s :
  Py.slice_from m (Py.slice_from n s) = Py.slice_from (n + m) s.
Proof.
  revert s. induction n as [|n IH]; intros s; simpl; [reflexivity|].
  destruct s as [|c r]; [now destruct m | apply IH].
Qed.

End LengthFacts.

Lemma absent_Forall (c : ascii) (l : list ascii) :
  ~ In c l <-> Forall (fun x => x <> c) l.
Proof.
  rewrite List.Forall_forall. split.
  - intros H x Hx ->. exact (H Hx).
  - intros H Hc. exact (H c Hc eq_refl).
Qed.

Lemma normalize_domain_before s :
  normalize_domain s = before "/" (stripped_prefixes s).
Proof. apply hd_split. Qed.

Lemma normalize_domain_no_slash s :
  ~ In "/"%char (Py.chars (normalize_domain s)).
Proof. rewrite normalize_domain_before. apply before_no_sep. Qed.

Lemma normalize_domain_lowered s :
  Forall (fun c => Py.lower_char c = c) (Py.chars (normalize_domain s)).
Proof.
  rewrite normalize_domain_before. unfold stripped_prefixes.
  apply Forall_before.
  do 3 apply Forall_removeprefix.
  apply lower_chars_fixed.
Qed.

(** A second application only trims the normal form and takes one more
    leading ["www."] off. *)
Lemma normalize_domain_twice s :
  normalize_domain (normalize_domain s)
  = Py.removeprefix "www." (Py.strip (normalize_domain s)).
Proof.
  set (n := normalize_domain s).
  assert (Hlow : Py.lower (Py.strip n) = Py.strip n).
  { apply lower_fixed, Forall_strip, normalize_domain_lowered. }
  assert (Hn : Forall (fun c => c <> "/"%char) (Py.chars n)).
  { apply absent_Forall, normalize_domain_no_slash. }
  assert (Hns : ~ In "/"%char (Py.chars (Py.strip n))).
  { apply absent_Forall, Forall_strip, Hn. }
  rewrite normalize_domain_before. unfold stripped_prefixes.
  rewrite Hlow.
  rewrite (removeprefix_absent "http://" _ "/"%char); [|simpl; tauto|assumption].
  rewrite (removeprefix_absent "https://" _ "/"%char); [|simpl; tauto|assumption].
  apply before_id.
  apply absent_Forall, Forall_removeprefix, absent_Forall, Hns.
Qed.

(** The two calls [removeprefix("http://").removeprefix("https://")] against
    the choice of the specification. *)
Lemma scheme_stage_once x :
  Py.startswith "http://https://" x = false ->
  Py.removeprefix "https://" (Py.removeprefix "http://" x) = strip_scheme_once x.
Proof.
  intros H.
  change "http://https://" with ("http://" ++ "https://") in H.
  rewrite startswith_app in H.
  change (String.length "http://") with 7 in H.
  unfold strip_scheme_once.
  destruct (Py.startswith "http://" x) eqn:E1.
  - rewrite andb_true_l in H.
    rewrite (removeprefix_true _ _ E1).
    change (String.length "http://") with 7.
    now apply removeprefix_false.
  - rewrite (removeprefix_false _ _ E1).
    destruct (Py.startswith "https://" x) eqn:E2.
    + now rewrite (removeprefix_true _ _ E2).
    + now apply removeprefix_false.
Qed.

Lemma scheme_stage_twice x :
  Py.startswith "http://https://" x = true ->
  Py.removeprefix "https://" (Py.removeprefix "http://" x) = Py.slice_from 15 x.
Proof.
  intros H.
  change "http://https://" with ("http://" ++ "https://") in H.
  rewrite startswith_app in H.
  change (String.length "http://") with 7 in H.
  apply andb_true_iff in H as [E1 E2].
  rewrite (removeprefix_true _ _ E1).
  change (String.length "http://") with 7.
  rewrite (removeprefix_true _ _ E2).
  apply (slice_from_add 7 8).
Qed.

(** * The mapping store *)

Section StoreFacts.

Implicit Types (t : table) (d raw k : string) (r : option string).

Lemma row_le_trans : Transitive row_le.
Proof. intros x y z. unfold row_le. apply transitivity. Qed.

Lemma row_le_total : Total row_le.
Proof. intros x y. unfold row_le. apply total, _. Qed.

Lemma select_all_ordered_sorted t : StronglySorted row_le (select_all_ordered t).
Proof.
  apply (@StronglySorted_merge_sort _ row_le _ row_le_trans row_le_total).
Qed.

Lemma delete_where_spec d t :
  delete_where d t
  = (if bool_decide (is_Some (t !! d)) then 1 else 0, delete d t).
Proof.
  unfold delete_where. destruct (t !! d) as [r|] eqn:E.
  - rewrite bool_decide_eq_true_2; [reflexivity | eauto].
  - rewrite bool_decide_eq_false_2; [|intros [? ?]; discriminate].
    now rewrite delete_id.
Qed.

Lemma remove_mapping_spec raw t :
  remove_mapping raw t
  = (bool_decide (is_Some (t !! normalize_domain raw)),
     delete (normalize_domain raw) t).
Proof.
  unfold remove_mapping. rewrite delete_where_spec.
  now destruct (bool_decide _).
Qed.

Lemma step_lookup t o k :
  is_Some (step t o !! k) ->
  is_Some (t !! k) \/ exists raw r, o = Upsert raw r /\ k = normalize_domain raw.
Proof.
  destruct o as [raw r|raw]; simpl.
  - unfold set_mapping, insert_on_conflict_update.
    destruct (decide (normalize_domain raw = k)) as [<-|Hne].
    + intros _. right. eauto.
    + rewrite lookup_insert_ne by assumption. now left.
  - rewrite remove_mapping_spec. simpl.
    rewrite lookup_delete_is_Some. intros [_ H]. now left.
Qed.

(** Every key of the table after a run was there before or is the normal
    form of a raw domain that the run upserted. *)
Lemma run_lookup ops t k :
  is_Some (run ops t !! k) ->
  is_Some (t !! k)
  \/ exists raw r, In (Upsert raw r) ops /\ k = normalize_domain raw.
Proof.
  revert t. induction ops as [|o ops IH]; intros t; simpl; [now left|].
  intros H. apply IH in H as [H|(raw & r & Hin & ->)].
  - apply step_lookup in H as [H|(raw & r & -> & ->)]; [now left|].
    right. exists raw, r. split; [now left | reflexivity].
  - right. exists raw, r. split; [now right | reflexivity].
Qed.

Lemma select_all_ordered_perm t : select_all_ordered t ≡ₚ map_to_list t.
Proof. apply merge_sort_Permutation. Qed.

Lemma list_mappings_domains t :
  map domain (list_mappings t) = (select_all_ordered t).*1.
Proof.
  unfold list_mappings. rewrite List.map_map. reflexivity.
Qed.

End StoreFacts.

(** * Properties of the specification *)

(** C1. After [set_mapping d r1] and then [set_mapping d r2],
    [get_redirect_for d'] returns [r2] for every raw [d'] with the same normal
    form as [d]; the second upsert replaces the row: the table is the one a
    single [set_mapping d r2] gives. *)
Theorem upsert_twice_then_get (t : table) (d d' : string) (r1 r2 : option string) :
  normalize_domain d' = normalize_domain d ->
  get_redirect_for d' (set_mapping d r2 (set_mapping d r1 t)) = r2
  /\ set_mapping d r2 (set_mapping d r1 t) = set_mapping d r2 t.
Proof.
  intros Hn. unfold get_redirect_for, select_redirect, set_mapping,
    insert_on_conflict_update.
  rewrite Hn, insert_insert_eq, lookup_insert_eq. split; reflexivity.
Qed.

Lemma upsert_twice_then_get_witness :
  normalize_domain "EXAMPLE.COM" = normalize_domain "Example.com"
  /\ get_redirect_for "EXAMPLE.COM"
       (set_mapping "Example.com" None
          (set_mapping "Example.com" (Some "https://x") ∅)) = None.
Proof.
  split; [reflexivity|].
  apply (upsert_twice_then_get ∅ "Example.com" "EXAMPLE.COM"
           (Some "https://x") None).
  reflexivity.
Defined.

(** C2, as stated, fails: the normal form of ["www.www.a.com"] is
    ["www.a.com"], whose normal form is ["a.com"]. *)
Lemma normalize_domain_not_idempotent :
  normalize_domain "www.www.a.com" = "www.a.com"
  /\ normalize_domain (normalize_domain "www.www.a.com") = "a.com"
  /\ ~ (forall s, normalize_domain (normalize_domain s) = normalize_domain s).
Proof.
  split; [reflexivity|]. split; [reflexivity|].
  intros H. specialize (H "www.www.a.com"). vm_compute in H. discriminate H.
Qed.

(** C2, amended.  A second application of [normalize_domain] trims the normal
    form and removes one more leading ["www."]; so it leaves the normal form
    unchanged exactly when that has no white space at either end and does not
    start with ["www."]. *)
Theorem normalize_domain_idempotent_iff (s : string) :
  normalize_domain (normalize_domain s)
  = Py.removeprefix "www." (Py.strip (normalize_domain s))
  /\ (normalize_domain (normalize_domain s) = normalize_domain s
      <-> Py.strip (normalize_domain s) = normalize_domain s
          /\ Py.startswith "www." (normalize_domain s) = false).
Proof.
  split; [apply normalize_domain_twice|].
  rewrite normalize_domain_twice.
  generalize (normalize_domain s) as n. intros n.
  split.
  - intros H.
    assert (L := removeprefix_length "www." (Py.strip n)).
    rewrite H in L.
    destruct (strip_length n) as [E|Hlt]; [|lia].
    split; [assumption|]. rewrite E in H.
    destruct (Py.startswith "www." n) eqn:Ew; [|reflexivity].
    rewrite (removeprefix_true _ _ Ew) in H.
    apply startswith_length in Ew.
    apply (f_equal String.length) in H. rewrite slice_from_length in H.
    change (String.length "www.") with 4 in *. lia.
  - intros [E Ew]. rewrite E. now apply removeprefix_false.
Qed.

Lemma normalize_domain_idempotent_iff_witness :
  normalize_domain (normalize_domain "HTTP://WWW.Example.com/path")
  = normalize_domain "HTTP://WWW.Example.com/path".
Proof.
  apply (normalize_domain_idempotent_iff "HTTP://WWW.Example.com/path").
  split; reflexivity.
Defined.

(** C3, as stated, fails: on ["http://https://a.com"] both scheme prefixes are
    removed, where the rule of the specification removes ["http://"] only. *)
Lemma scheme_removed_twice :
  scheme_removals "http://https://a.com" = 2
  /\ normalize_domain "http://https://a.com" = "a.com"
  /\ normalize_once "http://https://a.com" = "https:"
  /\ ~ (forall s, scheme_removals s <= 1
                  /\ normalize_domain s = normalize_once s).
Proof.
  repeat split; try reflexivity.
  intros H. destruct (H "http://https://a.com") as [H1 _].
  vm_compute in H1. lia.
Qed.

(** C3, amended.  [normalize_domain] removes a leading ["http://"] and then a
    leading ["https://"] from what is left.  When the trimmed, lowercased
    input does not start with ["http://https://"], at most one scheme prefix
    is removed, ["http://"] if present and otherwise ["https://"] if present,
    and the result is the one of the specification's steps; when it does,
    both prefixes are removed. *)
Theorem scheme_prefix_removal (s : string) :
  let x := Py.lower (Py.strip s) in
  (Py.startswith "http://https://" x = false ->
     Py.removeprefix "https://" (Py.removeprefix "http://" x)
     = strip_scheme_once x
     /\ scheme_removals s <= 1
     /\ normalize_domain s = normalize_once s)
  /\ (Py.startswith "http://https://" x = true ->
        Py.removeprefix "https://" (Py.removeprefix "http://" x)
        = Py.slice_from 15 x
        /\ scheme_removals s = 2).
Proof.
  intros x. split; intros H.
  - assert (E := scheme_stage_once x H). split; [exact E|]. split.
    + unfold scheme_removals. fold x.
      change "http://https://" with ("http://" ++ "https://") in H.
      rewrite startswith_app in H.
      change (String.length "http://") with 7 in H.
      destruct (Py.startswith "http://" x) eqn:E1.
      * rewrite andb_true_l in H. rewrite (removeprefix_true _ _ E1).
        change (String.length "http://") with 7. rewrite H. cbv iota. lia.
      * destruct (Py.startswith "https://" (Py.removeprefix "http://" x));
          cbv iota; lia.
    + rewrite normalize_domain_before.
      unfold stripped_prefixes, normalize_once. fold x. rewrite E.
      unfold Py.removeprefix. reflexivity.
  - split; [now apply scheme_stage_twice|].
    unfold scheme_removals. fold x.
    change "http://https://" with ("http://" ++ "https://") in H.
    rewrite startswith_app in H.
    change (String.length "http://") with 7 in H.
    apply andb_true_iff in H as [E1 E2].
    rewrite E1, (removeprefix_true _ _ E1).
    change (String.length "http://") with 7. now rewrite E2.
Qed.

Lemma scheme_prefix_removal_witness :
  scheme_removals "  HTTPS://www.Example.com/a/b " <= 1
  /\ normalize_domain "  HTTPS://www.Example.com/a/b "
     = normalize_once "  HTTPS://www.Example.com/a/b ".
Proof.
  apply (scheme_prefix_removal "  HTTPS://www.Example.com/a/b ").
  reflexivity.
Defined.

(** C4, as stated, fails: after [set_mapping "www.www.a.com"] on the empty
    table the stored key is ["www.a.com"], which [normalize_domain] does not
    leave unchanged. *)
Lemma stored_key_not_fixed :
  is_Some (run [Upsert "www.www.a.com" (Some "https://x")] ∅ !! "www.a.com")
  /\ normalize_domain "www.a.com" <> "www.a.com"
  /\ ~ (forall ops k, is_Some (run ops ∅ !! k) -> normalize_domain k = k).
Proof.
  assert (H1 : is_Some
            (run [Upsert "www.www.a.com" (Some "https://x")] ∅ !! "www.a.com")).
  { eexists. vm_compute. reflexivity. }
  assert (H2 : normalize_domain "www.a.com" <> "www.a.com").
  { vm_compute. discriminate. }
  split; [exact H1|]. split; [exact H2|].
  intros H. exact (H2 (H _ _ H1)).
Qed.

(** C4, amended.  After any sequence of upserts and deletes on the empty
    table, every stored key is the normal form [normalize_domain raw] of a raw
    domain that was upserted; a key is never stored in another form.  More
    generally, a run from any table only adds keys of that form. *)
Theorem stored_keys_are_normal_forms (ops : list op) (t : table) (k : string) :
  (is_Some (run ops ∅ !! k) ->
     exists raw r, In (Upsert raw r) ops /\ k = normalize_domain raw)
  /\ (is_Some (run ops t !! k) ->
        is_Some (t !! k)
        \/ exists raw r, In (Upsert raw r) ops /\ k = normalize_domain raw).
Proof.
  split; intros H.
  - apply run_lookup in H as [[? H]|H]; [|exact H].
    rewrite lookup_empty in H. discriminate H.
  - now apply run_lookup.
Qed.

Lemma stored_keys_are_normal_forms_witness :
  exists raw r,
    In (Upsert raw r)
       [Upsert "HTTP://WWW.Example.com/path" (Some "https://x"); Delete "b.com"]
    /\ "example.com" = normalize_domain raw.
Proof.
  apply (stored_keys_are_normal_forms
           [Upsert "HTTP://WWW.Example.com/path" (Some "https://x");
            Delete "b.com"] ∅ "example.com").
  eexists. vm_compute. reflexivity.
Defined.

(** C5.  [get_redirect_for d] returns the stored redirect when the table has
    a row for [normalize_domain d] and [None] when it has none; a table
    without the row and a table whose row holds a null redirect give the same
    answer [None]. *)
Theorem get_redirect_for_hit_or_miss (d : string) (t : table) :
  (forall r, t !! normalize_domain d = Some r -> get_redirect_for d t = r)
  /\ (t !! normalize_domain d = None -> get_redirect_for d t = None)
  /\ (forall t', t !! normalize_domain d = None ->
                 t' !! normalize_domain d = Some None ->
                 get_redirect_for d t = None
                 /\ get_redirect_for d t' = get_redirect_for d t).
Proof.
  unfold get_redirect_for, select_redirect.
  split; [|split].
  - intros r ->. reflexivity.
  - intros ->. reflexivity.
  - intros t' -> ->. split; reflexivity.
Qed.

Lemma get_redirect_for_hit_or_miss_witness :
  get_redirect_for "A.com" (∅ : table) = None
  /\ get_redirect_for "A.com" (set_mapping "a.com" None ∅)
     = get_redirect_for "A.com" (∅ : table).
Proof.
  apply (get_redirect_for_hit_or_miss "A.com" ∅).
  - reflexivity.
  - vm_compute. reflexivity.
Defined.

(** C6.  [remove_mapping d] returns [true] exactly when the table had a row
    for [normalize_domain d]; the table afterwards is the old one without that
    row, so the row is gone and every other row is as before; when there was
    no row the result is [false] and the table is unchanged. *)
Theorem remove_mapping_reports_row (d : string) (t : table) :
  ((remove_mapping d t).1 = true <-> is_Some (t !! normalize_domain d))
  /\ (remove_mapping d t).2 = delete (normalize_domain d) t
  /\ (remove_mapping d t).2 !! normalize_domain d = None
  /\ (forall k, k <> normalize_domain d ->
                (remove_mapping d t).2 !! k = t !! k)
  /\ (t !! normalize_domain d = None -> remove_mapping d t = (false, t)).
Proof.
  rewrite remove_mapping_spec. simpl.
  split; [apply bool_decide_eq_true|].
  split; [reflexivity|].
  split; [apply lookup_delete_eq|].
  split.
  - intros k Hk. now apply lookup_delete_ne.
  - intros H. rewrite delete_id by assumption.
    rewrite bool_decide_eq_false_2; [reflexivity|].
    rewrite H. intros [? ?]. discriminate.
Qed.

Lemma remove_mapping_reports_row_witness :
  remove_mapping "never-registered.com" (set_mapping "a.com" None ∅)
  = (false, set_mapping "a.com" None ∅).
Proof.
  apply (remove_mapping_reports_row "never-registered.com"
           (set_mapping "a.com" None ∅)).
  vm_compute. reflexivity.
Defined.

(** C7.  [list_mappings] returns the rows of the table, each exactly once (the
    result is a permutation of the rows, its domains are pairwise different,
    and an item is in it exactly when the table has that row), in ascending
    order of [domain]; after upserting ["b.com"] and then ["a.com"] into the
    empty table it returns ["a.com"] before ["b.com"]. *)
Theorem list_mappings_all_rows_ordered (t : table) (ra rb : option string) :
  list_mappings t ≡ₚ map (fun x => mkMappingItem x.1 x.2) (map_to_list t)
  /\ NoDup (map domain (list_mappings t))
  /\ (forall d r, In (mkMappingItem d r) (list_mappings t) <-> t !! d = Some r)
  /\ StronglySorted (fun a b => String.le (domain a) (domain b))
       (list_mappings t)
  /\ list_mappings (set_mapping "a.com" ra (set_mapping "b.com" rb ∅))
     = [mkMappingItem "a.com" ra; mkMappingItem "b.com" rb].
Proof.
  split; [|split; [|split; [|split]]].
  - unfold list_mappings. apply Permutation_map, select_all_ordered_perm.
  - rewrite list_mappings_domains, select_all_ordered_perm.
    apply NoDup_fst_map_to_list.
  - intros d r. unfold list_mappings. rewrite in_map_iff. split.
    + intros ([d' r'] & E & Hin). simpl in E. injection E as -> ->.
      apply list_elem_of_In in Hin.
      rewrite select_all_ordered_perm in Hin.
      now apply elem_of_map_to_list in Hin.
    + intros H. exists (d, r). split; [reflexivity|].
      apply list_elem_of_In. rewrite select_all_ordered_perm.
      now apply elem_of_map_to_list.
  - unfold list_mappings.
    apply (StronglySorted_fmap (fun x => mkMappingItem x.1 x.2) row_le).
    + intros x y H. exact H.
    + apply select_all_ordered_sorted.
  - vm_compute. reflexivity.
Qed.

Lemma normalize_domain_blank (d : string) :
  Py.blank d = true -> normalize_domain d = EmptyString.
Proof.
  intros H. rewrite normalize_domain_before. unfold stripped_prefixes.
  rewrite (strip_blank _ H). reflexivity.
Qed.

(** C8, as stated, fails: the store functions do not reject a blank domain;
    [set_mapping] on ["  "] writes a row under the empty key, which
    [get_redirect_for] and [remove_mapping] then find from a blank input. *)
Lemma blank_domain_reaches_store :
  Py.blank "  " = true
  /\ set_mapping "  " (Some "https://x") ∅ = {[ "" := Some "https://x" ]}
  /\ get_redirect_for "" (set_mapping "  " (Some "https://x") ∅)
     = Some "https://x"
  /\ remove_mapping " " (set_mapping "  " (Some "https://x") ∅) = (true, ∅)
  /\ ~ (forall d r (t : table), Py.blank d = true -> set_mapping d r t = t).
Proof.
  assert (E : set_mapping "  " (Some "https://x") ∅
              = ({[ "" := Some "https://x" ]} : table)).
  { vm_compute. reflexivity. }
  split; [reflexivity|]. split; [exact E|].
  split; [vm_compute; reflexivity|]. split; [vm_compute; reflexivity|].
  intros H. specialize (H "  " (Some "https://x") ∅ eq_refl).
  apply (f_equal (fun m : table => m !! "")) in H.
  vm_compute in H. discriminate H.
Qed.

(** C8, amended.  The empty domain is rejected by the routes: [check],
    [register] and [unregister] raise the 400 error "missing domain" before
    any store call and leave the table as it is, and [bulk_register] skips
    the item.  The store functions themselves reject nothing: on a blank
    input they work on the empty key. *)
Theorem empty_domain_rejected_by_routes (r : option string) (t : table) :
  check "" t = inl missing_domain
  /\ register "" r t = (inl missing_domain, t)
  /\ unregister "" t = (inl missing_domain, t)
  /\ bulk_register [("", r)] t = (1, t)
  /\ (forall d, Py.blank d = true ->
        set_mapping d r t = <["" := r]> t
        /\ get_redirect_for d t = get_redirect_for "" t
        /\ remove_mapping d t = (bool_decide (is_Some (t !! "")), delete "" t)).
Proof.
  repeat (split; [reflexivity|]).
  intros d H.
  unfold set_mapping, get_redirect_for, insert_on_conflict_update.
  rewrite remove_mapping_spec, (normalize_domain_blank _ H).
  repeat split; reflexivity.
Qed.

Lemma empty_domain_rejected_by_routes_witness :
  set_mapping "   " None (∅ : table) = <["" := None]> (∅ : table)
  /\ get_redirect_for "   " (∅ : table) = get_redirect_for "" (∅ : table)
  /\ remove_mapping "   " (∅ : table)
     = (bool_decide (is_Some ((∅ : table) !! "")), delete "" (∅ : table)).
Proof.
  apply (empty_domain_rejected_by_routes None ∅). reflexivity.
Defined.

(** C9.  [normalize_domain] returns a string on every input: the index [[0]]
    into the result of [split] never fails.  On an input that is empty or
    white space only the result is the empty string. *)
Theorem normalize_domain_total_blank_empty (s : string) :
  normalize_domain_indexed s = Some (normalize_domain s)
  /\ (Py.blank s = true -> normalize_domain s = EmptyString).
Proof.
  split; [|apply normalize_domain_blank].
  unfold normalize_domain_indexed.
  rewrite getitem0_split. now rewrite normalize_domain_before.
Qed.

Lemma normalize_domain_total_blank_empty_witness :
  normalize_domain "    " = EmptyString.
Proof.
  apply (normalize_domain_total_blank_empty "    "). reflexivity.
Defined.

(** C10.  The result of [normalize_domain] is the part of the prefix-stripped
    string before its first ['/'] and contains no ['/']; so no key stored by a
    sequence of upserts and deletes on the empty table contains one. *)
Theorem normalize_domain_slash_free (s : string) (ops : list op) (k : string) :
  normalize_domain s = before "/" (stripped_prefixes s)
  /\ ~ In "/"%char (Py.chars (normalize_domain s))
  /\ (is_Some (run ops ∅ !! k) -> ~ In "/"%char (Py.chars k)).
Proof.
  split; [apply normalize_domain_before|].
  split; [apply normalize_domain_no_slash|].
  intros H. apply run_lookup in H as [[? H]|(raw & r & _ & ->)].
  - rewrite lookup_empty in H. discriminate H.
  - apply normalize_domain_no_slash.
Qed.

Lemma normalize_domain_slash_free_witness :
  ~ In "/"%char (Py.chars "example.com").
Proof.
  apply (normalize_domain_slash_free "x"
           [Upsert "https://Example.com/a/b" None] "example.com").
  eexists. vm_compute. reflexivity.
Defined.

(** * Further facts about the string primitives *)

Section StripFacts.

Implicit Types (s : string) (c : ascii).

Lemma isspace_lower_char c : Py.isspace (Py.lower_char c) = Py.isspace c.
Proof. destruct c as [[] [] [] [] [] [] [] []]; reflexivity. Qed.

Lemma lower_idem s : Py.lower (Py.lower s) = Py.lower s.
Proof.
  induction s as [|c r IH]; simpl; [reflexivity|].
  now rewrite lower_char_idem, IH.
Qed.


Lemma lstrip_lower s : Py.lstrip (Py.lower s) = Py.lower (Py.lstrip s).
Proof.
  induction s as [|c r IH]; simpl; [reflexivity|].
  rewrite isspace_lower_char. destruct (Py.isspace c); [exact IH | reflexivity].
Qed.

Lemma rstrip_lower s : Py.rstrip (Py.lower s) = Py.lower (Py.rstrip s).
Proof.
  induction s as [|c r IH]; simpl; [reflexivity|].
  rewrite IH, isspace_lower_char.
  destruct (Py.rstrip r) as [|c' r']; simpl; [|reflexivity].
  destruct (Py.isspace c); reflexivity.
Qed.

Lemma strip_lower s : Py.strip (Py.lower s) = Py.lower (Py.strip s).
Proof. unfold Py.strip. now rewrite lstrip_lower, rstrip_lower. Qed.

Lemma rstrip_idem s : Py.rstrip (Py.rstrip s) = Py.rstrip s.
Proof.
  induction s as [|c r IH]; simpl; [reflexivity|].
  destruct (Py.rstrip r) as [|c' r'] eqn:E.
  - destruct (Py.isspace c) eqn:Ec; simpl; [reflexivity | now rewrite Ec].
  - change (Py.rstrip (String c (String c' r')))
      with (match Py.rstrip (String c' r') with
            | EmptyString =>
                if Py.isspace c then EmptyString else String c EmptyString
            | x => String c x
            end).
    now rewrite IH.
Qed.

Lemma rstrip_cons c s :
  Py.isspace c = false -> Py.rstrip (String c s) = String c (Py.rstrip s).
Proof.
  intros H. simpl. rewrite H. now destruct (Py.rstrip s).
Qed.

Lemma lstrip_fixed_head s :
  Py.lstrip s = s ->
  s = EmptyString \/ exists c r, s = String c r /\ Py.isspace c = false.
Proof.
  destruct s as [|c r]; [now left|]. simpl.
  destruct (Py.isspace c) eqn:E; [|right; eauto].
  intros H. exfalso.
  apply (f_equal String.length) in H. simpl in H.
  destruct (lstrip_length r) as [E'|E']; [rewrite E' in H|]; lia.
Qed.

Lemma lstrip_idem s : Py.lstrip (Py.lstrip s) = Py.lstrip s.
Proof.
  induction s as [|c r IH]; simpl; [reflexivity|].
  destruct (Py.isspace c) eqn:E; [exact IH|]. simpl. now rewrite E.
Qed.

Lemma lstrip_rstrip s : Py.lstrip s = s -> Py.lstrip (Py.rstrip s) = Py.rstrip s.
Proof.
  intros H. apply lstrip_fixed_head in H as [->|(c & r & -> & Hc)];
    [reflexivity|].
  rewrite (rstrip_cons _ _ Hc). simpl. now rewrite Hc.
Qed.

Lemma strip_idem s : Py.strip (Py.strip s) = Py.strip s.
Proof.
  unfold Py.strip.
  rewrite (lstrip_rstrip _ (lstrip_idem s)). apply rstrip_idem.
Qed.


Lemma truthy_false s : Py.truthy s = false <-> s = EmptyString.
Proof. destruct s; simpl; split; congruence. Qed.

End StripFacts.

(** * Further properties of the normaliser *)


Lemma removeprefix_strip_fixed n :
  Py.removeprefix "www." (Py.strip n) = n
  <-> Py.strip n = n /\ Py.startswith "www." n = false.
Proof.
  split.
  - intros H.
    assert (L := removeprefix_length "www." (Py.strip n)).
    rewrite H in L.
    destruct (strip_length n) as [E|Hlt]; [|lia].
    split; [assumption|]. rewrite E in H.
    destruct (Py.startswith "www." n) eqn:Ew; [|reflexivity].
    rewrite (removeprefix_true _ _ Ew) in H.
    apply startswith_length in Ew.
    apply (f_equal String.length) in H. rewrite slice_from_length in H.
    change (String.length "www.") with 4 in *. lia.
  - intros [E Ew]. rewrite E. now apply removeprefix_false.
Qed.


(** X2.  Letter case and white space around the input do not matter: lowering or
    trimming the raw domain first gives the same normal form, and so the same
    row in every store function. *)
Theorem normalize_domain_case_space_insensitive (s : string) :
  normalize_domain (Py.lower s) = normalize_domain s
  /\ normalize_domain (Py.strip s) = normalize_domain s
  /\ (forall t : table,
        get_redirect_for (Py.lower s) t = get_redirect_for s t
        /\ get_redirect_for (Py.strip s) t = get_redirect_for s t).
Proof.
  assert (E1 : normalize_domain (Py.lower s) = normalize_domain s).
  { unfold normalize_domain, stripped_prefixes.
    now rewrite strip_lower, lower_idem. }
  assert (E2 : normalize_domain (Py.strip s) = normalize_domain s).
  { unfold normalize_domain, stripped_prefixes. now rewrite strip_idem. }
  split; [exact E1|]. split; [exact E2|].
  intros t. unfold get_redirect_for. now rewrite E1, E2.
Qed.

(** X3.  The strings that [normalize_domain] leaves unchanged are exactly the
    trimmed, lower-case strings without ['/'] that do not start with
    ["www."]. *)
Theorem normalize_domain_fixed_points (s : string) :
  normalize_domain s = s
  <-> Py.strip s = s /\ Py.lower s = s
      /\ ~ In "/"%char (Py.chars s) /\ Py.startswith "www." s = false.
Proof.
  split.
  - intros H.
    assert (Hl : Py.lower s = s).
    { rewrite <- H at 1 2. apply lower_fixed, normalize_domain_lowered. }
    assert (Hs : ~ In "/"%char (Py.chars s)).
    { rewrite <- H. apply normalize_domain_no_slash. }
    assert (T := normalize_domain_twice s). rewrite !H in T.
    symmetry in T. apply removeprefix_strip_fixed in T as [T1 T2].
    tauto.
  - intros (Hst & Hl & Hs & Hw).
    rewrite normalize_domain_before. unfold stripped_prefixes.
    rewrite Hst, Hl.
    rewrite (removeprefix_absent "http://" _ "/"%char); [|simpl; tauto|assumption].
    rewrite (removeprefix_absent "https://" _ "/"%char); [|simpl; tauto|assumption].
    rewrite (removeprefix_false _ _ Hw). now apply before_id.
Qed.

Lemma normalize_domain_fixed_points_witness :
  normalize_domain "example.com" = "example.com".
Proof.
  apply (normalize_domain_fixed_points "example.com").
  repeat split; try reflexivity.
  simpl. intros H. repeat (destruct H as [H|H]; [discriminate H|]). exact H.
Defined.

(** * Configuration and the API-key dependency *)

Lemma split_fields_no_sep sep s :
  Forall (fun f => ~ In sep (Py.chars f)) (Py.split sep s).
Proof.
  induction s as [|c r IH]; simpl.
  - constructor; [simpl; tauto | constructor].
  - destruct (ascii_dec c sep).
    + constructor; [simpl; tauto | exact IH].
    + destruct (Py.split sep r) as [|f fs] eqn:E;
        [now apply split_not_nil in E|].
      inversion IH as [|? ? Hf Hfs]; subst.
      constructor; [|exact Hfs].
      simpl. intros [->|H]; [congruence | auto].
Qed.

(** X4.  Every configured CORS origin is non-empty, has no white space at either
    end and contains no comma; an empty [ALLOW_ORIGINS] allows no origin. *)
Theorem origins_well_formed (ALLOW_ORIGINS : string) :
  Forall (fun o => o <> EmptyString /\ Py.strip o = o
                   /\ ~ In ","%char (Py.chars o))
         (origins ALLOW_ORIGINS)
  /\ origins EmptyString = [].
Proof.
  split; [|reflexivity].
  unfold origins. destruct (String.eqb ALLOW_ORIGINS "*").
  - constructor; [|constructor].
    repeat split; [discriminate|].
    simpl. intros [H|H]; [discriminate H | exact H].
  - apply List.Forall_forall. intros o Ho.
    apply in_map_iff in Ho as (f & <- & Hf).
    apply filter_In in Hf as [Hf Ht].
    split; [|split].
    + intros E. rewrite E in Ht. discriminate Ht.
    + apply strip_idem.
    + apply absent_Forall, Forall_strip, absent_Forall.
      assert (F := split_fields_no_sep ","%char ALLOW_ORIGINS).
      rewrite List.Forall_forall in F. now apply F.
Qed.

Example origins_ex :
  origins " https://a.example , ,https://b.example,"
  = ["https://a.example"; "https://b.example"].
Proof. reflexivity. Qed.

(** X5.  The key check passes exactly when no key is configured ([API_KEY] unset
    or empty) or the header equals the configured key; in every other case it
    raises the 401 error. *)
Theorem require_api_key_passes_iff (API_KEY x_api_key : option string) :
  (require_api_key API_KEY x_api_key = inr true
   <-> truthy_opt API_KEY = false \/ x_api_key = API_KEY)
  /\ (require_api_key API_KEY x_api_key = inl unauthorized
      <-> truthy_opt API_KEY = true /\ x_api_key <> API_KEY).
Proof.
  unfold require_api_key.
  destruct (truthy_opt API_KEY) eqn:Ek.
  - destruct (decide (x_api_key = API_KEY)) as [->|Hne].
    + rewrite Ek, bool_decide_eq_true_2 by reflexivity. simpl.
      intuition discriminate.
    + rewrite (bool_decide_eq_false_2 _ Hne), orb_true_r.
      intuition discriminate.
  - intuition discriminate.
Qed.

Lemma require_api_key_passes_iff_witness :
  require_api_key (Some "") (Some "anything") = inr true.
Proof.
  apply (require_api_key_passes_iff (Some "") (Some "anything")).
  left. reflexivity.
Defined.

(** X6.  With a key configured, a request whose header is missing or different is
    answered 401 by every protected route and leaves the table as it is. *)
Theorem protected_routes_reject_bad_key
    (API_KEY x_api_key : option string) (d : string) (r : option string)
    (items : list (string * option string)) (t : table) :
  truthy_opt API_KEY = true ->
  x_api_key <> API_KEY ->
  register_route API_KEY x_api_key d r t = (inl unauthorized, t)
  /\ unregister_route API_KEY x_api_key d t = (inl unauthorized, t)
  /\ bulk_register_route API_KEY x_api_key items t = (inl unauthorized, t)
  /\ mappings_route API_KEY x_api_key t = (inl unauthorized, t).
Proof.
  intros Hk Hne.
  assert (E : require_api_key API_KEY x_api_key = inl unauthorized).
  { unfold require_api_key.
    now rewrite Hk, (bool_decide_eq_false_2 _ Hne), orb_true_r. }
  unfold register_route, unregister_route, bulk_register_route,
    mappings_route, depends.
  rewrite E. repeat split; reflexivity.
Qed.

Lemma protected_routes_reject_bad_key_witness :
  register_route (Some "s3cret") None "a.com" (Some "https://x") ∅
  = (inl unauthorized, ∅).
Proof.
  apply (protected_routes_reject_bad_key (Some "s3cret") None "a.com"
           (Some "https://x") [] ∅).
  - reflexivity.
  - discriminate.
Defined.

(** * Further properties of the store *)

Lemma get_redirect_for_lookup (d : string) (t : table) (v : option string) :
  t !! normalize_domain d = Some v -> get_redirect_for d t = v.
Proof. unfold get_redirect_for, select_redirect. now intros ->. Qed.


(** X7.  An upsert or a delete of one domain changes nothing for a domain with a
    different normal form: lookups and the result of a delete are as before. *)
Theorem other_domains_untouched (d d' : string) (r : option string) (t : table) :
  normalize_domain d' <> normalize_domain d ->
  get_redirect_for d' (set_mapping d r t) = get_redirect_for d' t
  /\ get_redirect_for d' (remove_mapping d t).2 = get_redirect_for d' t
  /\ (remove_mapping d' (set_mapping d r t)).1 = (remove_mapping d' t).1
  /\ (remove_mapping d' (remove_mapping d t).2).1 = (remove_mapping d' t).1.
Proof.
  intros Hne. rewrite !remove_mapping_spec. simpl.
  unfold get_redirect_for, select_redirect, set_mapping,
    insert_on_conflict_update.
  rewrite lookup_insert_ne, lookup_delete_ne by congruence.
  repeat split; reflexivity.
Qed.

Lemma other_domains_untouched_witness :
  get_redirect_for "b.com" (set_mapping "a.com" None {[ "b.com" := Some "u" ]})
  = get_redirect_for "b.com" ({[ "b.com" := Some "u" ]} : table).
Proof.
  apply (other_domains_untouched "a.com" "b.com" None {[ "b.com" := Some "u" ]}).
  vm_compute. discriminate.
Defined.


(** X8.  Deleting a domain that was just upserted, under any spelling with the
    same normal form, returns [true]; the table is then the table before the
    upsert without that row, so it is the table before the upsert when that
    had no such row, and a lookup finds nothing. *)
Theorem upsert_then_delete (d d' : string) (r : option string) (t : table) :
  normalize_domain d' = normalize_domain d ->
  remove_mapping d' (set_mapping d r t) = (true, delete (normalize_domain d) t)
  /\ (t !! normalize_domain d = None ->
        remove_mapping d' (set_mapping d r t) = (true, t))
  /\ get_redirect_for d (remove_mapping d' (set_mapping d r t)).2 = None.
Proof.
  intros Hn.
  assert (E : remove_mapping d' (set_mapping d r t)
              = (true, delete (normalize_domain d) t)).
  { rewrite remove_mapping_spec, Hn.
    unfold set_mapping, insert_on_conflict_update.
    rewrite lookup_insert_eq, delete_insert_eq.
    rewrite bool_decide_eq_true_2; [reflexivity | eauto]. }
  split; [exact E|]. split.
  - intros H. rewrite E. now rewrite delete_id.
  - rewrite E. simpl. unfold get_redirect_for, select_redirect.
    now rewrite lookup_delete_eq.
Qed.

Lemma upsert_then_delete_witness :
  remove_mapping "HTTP://A.com/x" (set_mapping "a.com" (Some "u") ∅)
  = (true, delete (normalize_domain "a.com") ∅).
Proof.
  exact (proj1 (upsert_then_delete "a.com" "HTTP://A.com/x" (Some "u") ∅
                  eq_refl)).
Defined.

(** X9.  An upsert adds one row when the normal form has no row yet and none when
    it has; a delete takes one row away when there is one and none
    otherwise. *)
Theorem table_size_changes (d : string) (r : option string) (t : table) :
  size (set_mapping d r t)
  = (if bool_decide (is_Some (t !! normalize_domain d))
     then size t else S (size t))
  /\ size (remove_mapping d t).2
     = (if bool_decide (is_Some (t !! normalize_domain d))
        then pred (size t) else size t).
Proof.
  rewrite remove_mapping_spec. simpl.
  unfold set_mapping, insert_on_conflict_update.
  rewrite map_size_insert, map_size_delete.
  destruct (t !! normalize_domain d) as [v|] eqn:E.
  - rewrite bool_decide_eq_true_2 by eauto. split; reflexivity.
  - rewrite bool_decide_eq_false_2; [split; reflexivity|].
    intros [? ?]; discriminate.
Qed.

(** X10.  [list_mappings] has one item per row, and it is the only ascending
    listing of the rows: every list of the rows that is sorted by domain is
    the list it returns. *)
Theorem list_mappings_canonical (t : table) (l : list (string * option string)) :
  length (list_mappings t) = size t
  /\ (l ≡ₚ map_to_list t -> Sorted row_le l ->
      list_mappings t = map (fun x => mkMappingItem x.1 x.2) l).
Proof.
  split.
  - unfold list_mappings. rewrite length_map.
    rewrite select_all_ordered_perm. apply length_map_to_list.
  - intros Hp Hs. unfold list_mappings. f_equal.
    apply (@Sorted_unique_strong _ row_le row_le_trans).
    + intros [k1 v1] [k2 v2] H1 H2 L1 L2. unfold row_le in *. simpl in *.
      rewrite select_all_ordered_perm in H1. rewrite Hp in H2.
      apply elem_of_map_to_list in H1, H2.
      assert (k1 = k2) by (apply (anti_symm String.le); assumption).
      subst. congruence.
    + apply Sorted.StronglySorted_Sorted, select_all_ordered_sorted.
    + exact Hs.
    + now rewrite select_all_ordered_perm, Hp.
Qed.

(** X11.  Every row stored by a sequence of upserts and deletes on the empty table
    can be looked up: some raw domain has the row's key as its normal form,
    and [get_redirect_for] on it returns the row's redirect. *)
Theorem stored_rows_reachable (ops : list op) (k : string) (v : option string) :
  run ops ∅ !! k = Some v ->
  exists raw, normalize_domain raw = k
              /\ get_redirect_for raw (run ops ∅) = v.
Proof.
  intros H.
  assert (S : is_Some (run ops ∅ !! k)) by eauto.
  apply run_lookup in S as [[? S]|(raw & r & _ & ->)].
  - rewrite lookup_empty in S. discriminate S.
  - exists raw. split; [reflexivity | now apply get_redirect_for_lookup].
Qed.

Lemma stored_rows_reachable_witness :
  exists raw, normalize_domain raw = "www.a.com"
    /\ get_redirect_for raw (run [Upsert "www.www.a.com" (Some "u")] ∅)
       = Some "u".
Proof.
  apply (stored_rows_reachable [Upsert "www.www.a.com" (Some "u")]
           "www.a.com" (Some "u")).
  vm_compute. reflexivity.
Defined.

(** X12.  A listed mapping whose domain is its own normal form is found by
    [get_redirect_for] under that domain, with the listed redirect. *)
Theorem listed_item_lookup (t : table) (it : MappingItem) :
  In it (list_mappings t) ->
  normalize_domain (domain it) = domain it ->
  get_redirect_for (domain it) t = redirect it.
Proof.
  intros Hin Hn. unfold list_mappings in Hin.
  apply in_map_iff in Hin as ([k v] & <- & Hin). simpl in *.
  apply list_elem_of_In in Hin. rewrite select_all_ordered_perm in Hin.
  apply elem_of_map_to_list in Hin.
  apply get_redirect_for_lookup. now rewrite Hn.
Qed.

Lemma listed_item_lookup_witness :
  get_redirect_for "a.com" (set_mapping "A.com" (Some "u") ∅) = Some "u".
Proof.
  apply (listed_item_lookup (set_mapping "A.com" (Some "u") ∅)
           (mkMappingItem "a.com" (Some "u"))).
  - vm_compute. left. reflexivity.
  - reflexivity.
Defined.

Lemma list_mappings_canonical_witness :
  list_mappings (set_mapping "a.com" None (set_mapping "b.com" (Some "u") ∅))
  = map (fun x => mkMappingItem x.1 x.2)
        [("a.com", None); ("b.com", Some "u")].
Proof.
  apply (list_mappings_canonical
           (set_mapping "a.com" None (set_mapping "b.com" (Some "u") ∅))
           [("a.com", None); ("b.com", Some "u")]).
  - vm_compute. first [reflexivity | apply perm_swap].
  - repeat constructor.
Defined.

(** * Further properties of the routes *)






Lemma unregister_cases (d : string) (t : table) :
  (forall e, (unregister d t).1 = inl e ->
     (unregister d t).2 = t
     /\ (e = missing_domain /\ d = EmptyString
         \/ e = mapping_not_found /\ t !! normalize_domain d = None))
  /\ (forall dom, (unregister d t).1 = inr dom ->
        dom = normalize_domain d
        /\ is_Some (t !! dom)
        /\ (unregister d t).2 = delete dom t
        /\ unregister d (unregister d t).2
           = (inl mapping_not_found, delete dom t)).
Proof.
  unfold unregister. rewrite !remove_mapping_spec.
  destruct d as [|c d0]; simpl.
  - split; [|discriminate]. intros e [= <-]. auto.
  - set (k := normalize_domain (String c d0)).
    destruct (t !! k) as [v|] eqn:E.
    + rewrite bool_decide_eq_true_2 by eauto. simpl.
      split; [discriminate|]. intros dom [= <-].
      rewrite lookup_delete_eq.
      rewrite bool_decide_eq_false_2 by (intros [? ?]; discriminate). simpl.
      rewrite E. repeat split; eauto. now rewrite delete_delete_eq.
    + rewrite bool_decide_eq_false_2 by (intros [? ?]; discriminate). simpl.
      split; [|discriminate]. intros e [= <-].
      split; [now apply delete_id | auto].
Qed.

(** X15.  Whenever [unregister] raises, the table is unchanged; the error is 400
    for the empty domain and 404 when the normal form has no row. *)
Theorem unregister_error_keeps_table (d : string) (t : table) (e : HTTPException) :
  (unregister d t).1 = inl e ->
  (unregister d t).2 = t
  /\ (e = missing_domain /\ d = EmptyString
      \/ e = mapping_not_found /\ t !! normalize_domain d = None).
Proof. apply unregister_cases. Qed.

Lemma unregister_error_keeps_table_witness :
  (unregister "b.com" (set_mapping "a.com" None ∅)).2
  = set_mapping "a.com" None ∅.
Proof.
  apply (unregister_error_keeps_table "b.com" (set_mapping "a.com" None ∅)
           mapping_not_found).
  reflexivity.
Defined.

(** X16.  When [unregister] succeeds, the answer is the normal form of the domain,
    there was a row for it, the row is gone afterwards, and a second
    [unregister] of the same domain raises 404. *)
Theorem unregister_success (d : string) (t : table) (dom : string) :
  (unregister d t).1 = inr dom ->
  dom = normalize_domain d
  /\ is_Some (t !! dom)
  /\ (unregister d t).2 = delete dom t
  /\ unregister d (unregister d t).2 = (inl mapping_not_found, delete dom t).
Proof. apply unregister_cases. Qed.

Lemma unregister_success_witness :
  unregister "A.com" (unregister "A.com" (set_mapping "a.com" None ∅)).2
  = (inl mapping_not_found, delete "a.com" (set_mapping "a.com" None ∅)).
Proof.
  apply (unregister_success "A.com" (set_mapping "a.com" None ∅) "a.com").
  reflexivity.
Defined.



Lemma bulk_register_cons (it : string * option string)
    (items : list (string * option string)) (t : table) :
  (bulk_register (it :: items) t).2
  = (bulk_register items
       (if Py.truthy it.1 then set_mapping it.1 (or_none it.2) t else t)).2.
Proof. reflexivity. Qed.






(** X20.  [bulk_register] adds at most one row per item with a non-empty domain,
    while the count it reports also includes the items it skipped. *)
Theorem bulk_register_row_bound (items : list (string * option string))
    (t : table) :
  (bulk_register items t).1 = length items
  /\ size (bulk_register items t).2
     <= size t + length (List.filter (fun it => Py.truthy it.1) items)
  /\ length (List.filter (fun it => Py.truthy it.1) items) <= length items.
Proof.
  split; [reflexivity|]. split; [|apply List.filter_length_le].
  revert t. induction items as [|it items IH]; intros t.
  - simpl. lia.
  - rewrite bulk_register_cons. specialize (IH
      (if Py.truthy it.1 then set_mapping it.1 (or_none it.2) t else t)).
    simpl List.filter. destruct (Py.truthy it.1); [|exact IH].
    simpl length.
    assert (S : size (set_mapping it.1 (or_none it.2) t) <= S (size t)).
    { unfold set_mapping, insert_on_conflict_update. rewrite map_size_insert.
      destruct (t !! normalize_domain it.1); simpl; lia. }
    lia.
Qed.

Example bulk_register_ex :
  bulk_register [("", Some "https://x"); ("a.com", None); ("A.com/", None)] ∅
  = (3, {[ "a.com" := None ]}).
Proof. vm_compute. reflexivity. Qed.
